(** * geomapper: flood-risk overlay driver (src/main.py)

    A shallow embedding of the configuration extractor, the report line and
    the driver of [main.py].  The geospatial and plotting primitives
    (geopandas, matplotlib, contextily) are calls into libraries; they appear
    here as actions of a program tree, answered by an environment. *)

From Stdlib Require Import ZArith Lia.
From stdpp Require Import base option list strings gmap fin_maps.

Local Open Scope string_scope.
Local Set Warnings "-register-all".

(** ** Python values as [json.load] produces them *)

(** A JSON document after [json.load]: objects are Python dicts, arrays are
    Python lists.  Floats are only ever passed along by this program, so a
    float keeps the literal it was read from. *)
Inductive json : Type :=
| JNull
| JBool (b : bool)
| JInt (z : Z)
| JFloat (literal : string)
| JString (s : string)
| JArray (items : list json)
| JObject (fields : gmap string json).

(** ** Exceptions *)

(** The exceptions the program's own statements raise, and one constructor
    for whatever a library call raises (a missing file, malformed JSON, an
    unreadable layer, a failed tile fetch). *)
Inductive pyerr : Type :=
| AttributeError (attr : string)
| TypeError
| UnboundLocalError (name : string)
| LibraryError (what : string).

Inductive result (A : Type) : Type :=
| Ok (a : A)
| Err (e : pyerr).
Arguments Ok {A} a.
Arguments Err {A} e.

Definition rbind {A B} (r : result A) (f : A -> result B) : result B :=
  match r with
  | Ok a => f a
  | Err e => Err e
  end.

(** [d.get(key, default)]: only dicts have the method. *)
Definition py_get (d : json) (key : string) (default : json) : result json :=
  match d with
  | JObject m => Ok (match m !! key with Some v => v | None => default end)
  | _ => Err (AttributeError "get")
  end.

(** The sequence a [for] statement walks through.  A list gives its items, a
    dict its keys, a string its characters; the other values are not
    iterable.  A [gmap] does not keep the insertion order of a dict; the
    loop at line 84 raises on the first key whichever it is, so the order
    does not show. *)
Definition chars_of (s : string) : list json :=
  (fun c => JString (String c EmptyString)) <$> String.list_ascii_of_string s.

Definition py_iter (v : json) : result (list json) :=
  match v with
  | JArray l => Ok l
  | JObject m => Ok ((fun kv => JString kv.1) <$> map_to_list m)
  | JString s => Ok (chars_of s)
  | _ => Err TypeError
  end.

(** [isinstance(v, dict)] *)
Definition is_object (v : json) : bool :=
  match v with
  | JObject _ => true
  | _ => false
  end.

(** [isinstance(v, str)] *)
Definition is_string (v : json) : bool :=
  match v with
  | JString _ => true
  | _ => false
  end.

(** ** Job descriptors *)

(** The dict literal built at lines 85-90: always the same four keys. *)
Record descriptor : Type := Descriptor {
  risk_layer_path : json;
  asset_layer_path : json;
  command_read_out : json;
  plot_title : json
}.

(** One turn of the loop at lines 84-90. *)
Definition extract_item (item : json) : result descriptor :=
  rbind (py_get item "risk_layer_path" (JString "")) (fun r =>
  rbind (py_get item "asset_layer_path" (JString "")) (fun a =>
  rbind (py_get item "command_read_out" (JString "")) (fun c =>
  rbind (py_get item "plot_title" (JString "")) (fun p =>
  Ok (Descriptor r a c p))))).

(** The loop: [extracted_items.append] in order, the first exception ends it. *)
Fixpoint extract_loop (items : list json) (extracted_items : list descriptor)
  : result (list descriptor) :=
  match items with
  | [] => Ok extracted_items
  | item :: rest =>
      rbind (extract_item item) (fun d =>
      extract_loop rest (extracted_items ++ [d]))
  end.

(** Lines 82-92, on the parsed [config]. *)
Definition extract_items (config : json) : result (list descriptor) :=
  rbind (py_get config "inputs" (JArray [])) (fun inputs =>
  rbind (py_iter inputs) (fun items =>
  extract_loop items [])).

(** ** Strings and numbers *)

(** [v + s] where the right operand is a [str], as at lines 105 and 121:
    only a [str] on the left concatenates, every other value raises. *)
Definition py_add_str (v : json) (s : string) : result string :=
  match v with
  | JString t => Ok (t ++ s)
  | _ => Err TypeError
  end.

Definition digit_char (d : nat) : Ascii.ascii :=
  Ascii.ascii_of_nat (48 + d).

(** [str(n)] for a non-negative [int]: the digits of [n] from the least
    significant one, each put in front of those already produced. *)
Fixpoint str_digits (fuel n : nat) (acc : string) : string :=
  match fuel with
  | O => acc
  | S fuel' =>
      let acc' := String (digit_char (n mod 10)) acc in
      if Nat.eqb (n / 10) 0 then acc' else str_digits fuel' (n / 10) acc'
  end.

Definition str (n : nat) : string := str_digits (S n) n "".

(** Reading a decimal numeral back, most significant digit first. *)
Definition digit_value (c : Ascii.ascii) : option nat :=
  let k := Ascii.nat_of_ascii c in
  if (Nat.leb 48 k && Nat.leb k 57)%bool then Some (k - 48) else None.

Fixpoint decimal_from (acc : nat) (s : string) : option nat :=
  match s with
  | EmptyString => Some acc
  | String c rest =>
      match digit_value c with
      | Some d => decimal_from (10 * acc + d) rest
      | None => None
      end
  end.

Definition decimal_value (s : string) : option nat :=
  match s with
  | EmptyString => None
  | _ => decimal_from 0 s
  end.

(** The text line 121 hands to [print]. *)
Definition report_line (command_read_out : json) (count : nat) : result string :=
  py_add_str command_read_out (str count).

(** ** The local variables of [main] *)

Module Frame.
(** A name is unbound until its first assignment. *)
Record t : Type := Make {
  idx : option nat;
  item : option descriptor;
  risk_layer_path : option json;
  asset_layer_path : option json;
  command_read_out : option json;
  plot_title : option json
}.

Definition unbound : t := Make None None None None None None.
End Frame.

(** One turn of the loop at lines 99-103: six assignments, nothing else. *)
Definition loop_body (f : Frame.t) (p : nat * descriptor) : Frame.t :=
  let '(idx, item) := p in
  {| Frame.idx := Some idx;
     Frame.item := Some item;
     Frame.risk_layer_path := Some (risk_layer_path item);
     Frame.asset_layer_path := Some (asset_layer_path item);
     Frame.command_read_out := Some (command_read_out item);
     Frame.plot_title := Some (plot_title item) |}.

Fixpoint enumerate_from {A} (start : nat) (l : list A) : list (nat * A) :=
  match l with
  | [] => []
  | x :: rest => (start, x) :: enumerate_from (S start) rest
  end.

Definition enumerate {A} (l : list A) : list (nat * A) := enumerate_from 0 l.

Definition main_loop (config_items : list descriptor) : Frame.t :=
  fold_left loop_body (enumerate config_items) Frame.unbound.

(** ** The steps of a run *)

(** What a library call is for, in the order [main] goes through them. *)
Inductive stage : Type :=
| ReadConfig
| LoadLayer
| Normalize
| Overlay
| WriteResult
| Report
| Render.

#[global] Instance stage_eq_dec : EqDecision stage.
Proof. solve_decision. Defined.

(** ** Library calls *)

(** Keyword arguments of [GeoDataFrame.plot] as lines 56-58 pass them. *)
Record plot_style : Type := PlotStyle {
  color : string;
  alpha : option string;
  edgecolor : option string;
  markersize : option Z;
  label : string
}.

Section Driver.

(** What the libraries hand back: frames, their CRS tag, figures, axes. *)
Context {GeoDataFrame CRS Figure Axes : Type}.

(** [len(gdf)] and [gdf.crs] *)
Variable len : GeoDataFrame -> nat.
Variable crs : GeoDataFrame -> CRS.

Inductive action : Type :=
| open_read (file_path : string)
| json_load (text : string)
| gpd_read_file (file_path : json)
| to_crs (gdf : GeoDataFrame) (target : CRS)
| gpd_overlay (df1 df2 : GeoDataFrame) (how : string)
| to_file (gdf : GeoDataFrame) (output_path : string) (driver : string)
| print (line : string)
| plt_subplots (figsize : Z * Z)
| gdf_plot (gdf : GeoDataFrame) (ax : Axes) (style : plot_style)
| ctx_add_basemap (ax : Axes) (source : string)
| ax_set_title (ax : Axes) (title : json)
| ax_set_axis_off (ax : Axes)
| plt_legend
| plt_savefig (fname : json).

Definition response (a : action) : Type :=
  match a with
  | open_read _ => string
  | json_load _ => json
  | gpd_read_file _ | to_crs _ _ | gpd_overlay _ _ _ => GeoDataFrame
  | plt_subplots _ => (Figure * Axes)%type
  | _ => unit
  end.

(** A program: it returns, raises, or calls a library and goes on with the
    answer. *)
Inductive prog (T : Type) : Type :=
| Return (x : T)
| Raise (e : pyerr)
| Do (a : action) (k : response a -> prog T).
Arguments Return {T} x.
Arguments Raise {T} e.
Arguments Do {T} a k.

Fixpoint bind {T U} (p : prog T) (f : T -> prog U) : prog U :=
  match p with
  | Return x => f x
  | Raise e => Raise e
  | Do a k => Do a (fun r => bind (k r) f)
  end.

Definition call (a : action) : prog (response a) := Do a Return.

Definition lift {T} (r : result T) : prog T :=
  match r with
  | Ok x => Return x
  | Err e => Raise e
  end.

(** Reading a local variable of [main]. *)
Definition local {T} (name : string) (v : option T) : prog T :=
  match v with
  | Some x => Return x
  | None => Raise (UnboundLocalError name)
  end.

Notation "x <- p ;; q" := (bind p (fun x => q))
  (at level 100, p at next level, right associativity).
Notation "p ;; q" := (bind p (fun _ => q))
  (at level 100, right associativity).

(** *** The functions of main.py *)

Definition load_geojson (file_path : json) : prog GeoDataFrame :=
  call (gpd_read_file file_path).

Definition overlay_maps (flood_risk_gdf property_gdf : GeoDataFrame)
  : prog GeoDataFrame :=
  call (gpd_overlay property_gdf flood_risk_gdf "intersection").

Definition save_geojson (gdf : GeoDataFrame) (output_path : string)
  : prog unit :=
  call (to_file gdf output_path "GeoJSON").

Definition plot_and_save_properties
    (flood_risk_gdf property_gdf at_risk_properties : GeoDataFrame)
    (plot_title : json) : prog unit :=
  fig_ax <- call (plt_subplots (12, 10)%Z);;
  let ax := snd fig_ax in
  call (gdf_plot flood_risk_gdf ax
          (PlotStyle "blue" (Some "0.4") (Some "k") None "Flood Risk Area"));;
  call (gdf_plot property_gdf ax
          (PlotStyle "gray" None None (Some 10%Z) "All Properties"));;
  call (gdf_plot at_risk_properties ax
          (PlotStyle "red" None None (Some 15%Z) "At-Risk Properties"));;
  call (ctx_add_basemap ax "OpenStreetMap.Mapnik");;
  call (ax_set_title ax plot_title);;
  call (ax_set_axis_off ax);;
  call plt_legend;;
  call (plt_savefig plot_title).

Definition extract_config (file_path : string) : prog (list descriptor) :=
  text <- call (open_read file_path);;
  config <- call (json_load text);;
  lift (extract_items config).

(** Lines 105-124, on the variables the loop left behind. *)
Definition main_body (f : Frame.t) : prog unit :=
  plot_title <- local "plot_title" (Frame.plot_title f);;
  output_path <- lift (py_add_str plot_title ".json");;
  risk_layer_path <- local "risk_layer_path" (Frame.risk_layer_path f);;
  risk_layer_gdf <- load_geojson risk_layer_path;;
  asset_layer_path <- local "asset_layer_path" (Frame.asset_layer_path f);;
  asset_gdf <- load_geojson asset_layer_path;;
  asset_gdf <- call (to_crs asset_gdf (crs risk_layer_gdf));;
  at_risk_properties <- overlay_maps risk_layer_gdf asset_gdf;;
  save_geojson at_risk_properties output_path;;
  command_read_out <- local "command_read_out" (Frame.command_read_out f);;
  line <- lift (report_line command_read_out (len at_risk_properties));;
  call (print line);;
  plot_title <- local "plot_title" (Frame.plot_title f);;
  plot_and_save_properties risk_layer_gdf asset_gdf at_risk_properties
    plot_title.

(** Lines 99-124: the loop, then the body. *)
Definition main_from (config_items : list descriptor) : prog unit :=
  main_body (main_loop config_items).

Definition main : prog unit :=
  config_items <- extract_config "config.json";;
  main_from config_items.

(** *** Running a program against the outside world *)

(** The world answers each call, with a value or an exception, and may
    change while doing so. *)
Context {World : Type}.
Variable respond : forall a : action, World -> result (response a) * World.

(** The outcome, the world left behind, and the calls made, in order. *)
Fixpoint run {T} (p : prog T) (w : World)
  : result T * World * list action :=
  match p with
  | Return x => (Ok x, w, [])
  | Raise e => (Err e, w, [])
  | Do a k =>
      match respond a w with
      | (Ok r, w') =>
          let '(out, w'', calls) := run (k r) w' in (out, w'', a :: calls)
      | (Err e, w') => (Err e, w', [a])
      end
  end.

(** A world in which no call raises. *)
Definition always_answers : Prop :=
  forall (a : action) (w : World), exists r w', respond a w = (Ok r, w').

(** The step each call belongs to. *)
Definition stage_of (a : action) : stage :=
  match a with
  | open_read _ | json_load _ => ReadConfig
  | gpd_read_file _ => LoadLayer
  | to_crs _ _ => Normalize
  | gpd_overlay _ _ _ => Overlay
  | to_file _ _ _ => WriteResult
  | print _ => Report
  | plt_subplots _ | gdf_plot _ _ _ | ctx_add_basemap _ _ | ax_set_title _ _
  | ax_set_axis_off _ | plt_legend | plt_savefig _ => Render
  end.

(** Lines 108-124 when nothing raises: two loads, the reprojection, the
    overlay, the write, the report, and the nine calls of the renderer. *)
Definition body_stages : list stage :=
  [LoadLayer; LoadLayer; Normalize; Overlay; WriteResult; Report;
   Render; Render; Render; Render; Render; Render; Render; Render; Render].

(** Calls that open an input layer, and calls that leave an artifact. *)
Definition opens_layer (a : action) : bool :=
  match a with
  | gpd_read_file _ => true
  | _ => false
  end.

Definition produces_artifact (a : action) : bool :=
  match a with
  | to_file _ _ _ | print _ | plt_savefig _ => true
  | _ => false
  end.

End Driver.

(** What the four [item.get(key, '')] calls find in one entry. *)
Definition entry_fields (e : gmap string json) : descriptor :=
  {| risk_layer_path := default (JString "") (e !! "risk_layer_path");
     asset_layer_path := default (JString "") (e !! "asset_layer_path");
     command_read_out := default (JString "") (e !! "command_read_out");
     plot_title := default (JString "") (e !! "plot_title") |}.

(** ** A scripted world

    The smallest world to run the driver in: frames, CRS tags, figures and
    axes carry nothing, the configuration file holds [text] and parses to
    [config], and every other call succeeds. *)
Definition scripted (text : string) (config : json)
    (a : @action unit unit unit) (w : unit)
  : result (@response unit unit unit unit a) * unit :=
  match a as a0 return result (@response unit unit unit unit a0) * unit with
  | open_read _ => (Ok text, w)
  | json_load _ => (Ok config, w)
  | gpd_read_file _ => (Ok tt, w)
  | to_crs _ _ => (Ok tt, w)
  | gpd_overlay _ _ _ => (Ok tt, w)
  | to_file _ _ _ => (Ok tt, w)
  | print _ => (Ok tt, w)
  | plt_subplots _ => (Ok (tt, tt), w)
  | gdf_plot _ _ _ => (Ok tt, w)
  | ctx_add_basemap _ _ => (Ok tt, w)
  | ax_set_title _ _ => (Ok tt, w)
  | ax_set_axis_off _ => (Ok tt, w)
  | plt_legend => (Ok tt, w)
  | plt_savefig _ => (Ok tt, w)
  end.


(** A configuration with two entries, the second one partial, and the
    descriptors it stands for. *)
Definition sample_entries : list (gmap string json) :=
  [ {[ "risk_layer_path" := JString "flood.geojson";
       "asset_layer_path" := JString "homes.geojson";
       "command_read_out" := JString "At-risk properties: ";
       "plot_title" := JString "first.png" ]};
    {[ "plot_title" := JString "second.png" ]} ].

Definition sample_config : gmap string json :=
  {[ "inputs" := JArray (JObject <$> sample_entries) ]}.

Definition first_job : descriptor :=
  Descriptor (JString "flood.geojson") (JString "homes.geojson")
    (JString "At-risk properties: ") (JString "first.png").

Definition second_job : descriptor :=
  Descriptor (JString "") (JString "") (JString "") (JString "second.png").

(** * Properties *)

(** ** Decimal numerals *)

Lemma append_cons (c : Ascii.ascii) (s t : string) :
  (String c s ++ t)%string = String c (s ++ t).
Proof. reflexivity. Qed.

Lemma append_nil_l (t : string) : ("" ++ t)%string = t.
Proof. reflexivity. Qed.

Lemma append_assoc (s t u : string) : ((s ++ t) ++ u = s ++ (t ++ u))%string.
Proof.
  induction s as [|c s IH]; [reflexivity|].
  now rewrite !append_cons, IH.
Qed.

Lemma append_length (s t : string) :
  String.length (s ++ t) = String.length s + String.length t.
Proof.
  induction s as [|c s IH]; [reflexivity|].
  rewrite append_cons. simpl. now rewrite IH.
Qed.

Lemma append_empty_r (s : string) : (s ++ "")%string = s.
Proof.
  induction s as [|c s IH]; [reflexivity|].
  now rewrite append_cons, IH.
Qed.

Lemma digit_value_digit_char (d : nat) :
  d < 10 -> digit_value (digit_char d) = Some d.
Proof.
  intros Hd. unfold digit_value, digit_char.
  rewrite Ascii.nat_ascii_embedding by lia.
  replace (Nat.leb 48 (48 + d)) with true by (symmetry; apply Nat.leb_le; lia).
  replace (Nat.leb (48 + d) 57) with true by (symmetry; apply Nat.leb_le; lia).
  simpl. f_equal. lia.
Qed.

Lemma digit_char_zero (d : nat) :
  d < 10 -> digit_char d = digit_char 0 -> d = 0.
Proof.
  intros Hd Heq.
  assert (H : digit_value (digit_char d) = digit_value (digit_char 0))
    by now rewrite Heq.
  rewrite !digit_value_digit_char in H by lia. congruence.
Qed.

Lemma decimal_from_digit (a d : nat) (rest : string) :
  d < 10 ->
  decimal_from a (String (digit_char d) rest) = decimal_from (10 * a + d) rest.
Proof.
  intros Hd. cbn [decimal_from]. now rewrite digit_value_digit_char.
Qed.

(** What [str_digits] puts in front of the accumulator: a non-empty numeral
    that reads back as [n] and starts with a zero only when [n] is zero. *)
Lemma str_digits_spec (fuel : nat) :
  forall n acc, n < fuel ->
  exists d,
    str_digits fuel n acc = (d ++ acc)%string /\
    d <> EmptyString /\
    (forall a rest,
       decimal_from a (d ++ rest)
       = decimal_from (a * 10 ^ String.length d + n) rest) /\
    (forall t, d = String (digit_char 0) t -> n = 0).
Proof.
  induction fuel as [|fuel IH]; intros n acc Hn; [lia|].
  assert (Hmod : n mod 10 < 10) by (apply Nat.mod_upper_bound; lia).
  assert (Hdm : n = 10 * (n / 10) + n mod 10) by (apply Nat.div_mod; lia).
  cbn [str_digits]. destruct (Nat.eqb (n / 10) 0) eqn:Hq.
  - apply Nat.eqb_eq in Hq.
    exists (String (digit_char (n mod 10)) EmptyString). repeat split.
    + discriminate.
    + intros a rest. rewrite append_cons, append_nil_l.
      rewrite decimal_from_digit by assumption.
      f_equal. cbn [String.length]. rewrite Nat.pow_1_r. lia.
    + intros t Ht.
      assert (Hc : digit_char (n mod 10) = digit_char 0) by congruence.
      apply digit_char_zero in Hc; [lia | assumption].
  - apply Nat.eqb_neq in Hq.
    destruct (IH (n / 10) (String (digit_char (n mod 10)) acc))
      as (d & Hd & Hne & Hval & Hlead); [lia|].
    exists (d ++ String (digit_char (n mod 10)) EmptyString)%string.
    repeat split.
    + rewrite Hd, append_assoc. reflexivity.
    + destruct d; [congruence | discriminate].
    + intros a rest. rewrite append_assoc, append_cons, append_nil_l.
      rewrite Hval, decimal_from_digit by assumption.
      f_equal. rewrite append_length. cbn [String.length].
      rewrite Nat.add_1_r, Nat.pow_succ_r'. lia.
    + intros t Ht. destruct d as [|c d']; [congruence|].
      rewrite append_cons in Ht.
      assert (Hc : c = digit_char 0) by congruence. subst c.
      specialize (Hlead d' eq_refl). lia.
Qed.

Lemma str_decimal (n : nat) : decimal_value (str n) = Some n.
Proof.
  destruct (str_digits_spec (S n) n "") as (d & Hd & Hne & Hval & _); [lia|].
  unfold str. rewrite Hd, append_empty_r.
  unfold decimal_value. destruct d as [|c d']; [congruence|].
  specialize (Hval 0 ""%string). rewrite append_empty_r in Hval.
  rewrite Hval. reflexivity.
Qed.

Lemma str_leading_zero (n : nat) (t : string) :
  str n = String (digit_char 0) t -> n = 0.
Proof.
  destruct (str_digits_spec (S n) n "") as (d & Hd & _ & _ & Hlead); [lia|].
  unfold str. rewrite Hd, append_empty_r. apply Hlead.
Qed.

(** The digits in front of the accumulator are as many as [n] needs. *)
Lemma str_digits_bounds (fuel : nat) :
  forall n acc, n < fuel ->
  exists d,
    str_digits fuel n acc = (d ++ acc)%string /\
    1 <= String.length d /\
    n < 10 ^ String.length d /\
    (n <> 0 -> 10 ^ (String.length d - 1) <= n).
Proof.
  induction fuel as [|fuel IH]; intros n acc Hn; [lia|].
  assert (Hmod : n mod 10 < 10) by (apply Nat.mod_upper_bound; lia).
  assert (Hdm : n = 10 * (n / 10) + n mod 10) by (apply Nat.div_mod; lia).
  cbn [str_digits]. destruct (Nat.eqb (n / 10) 0) eqn:Hq.
  - apply Nat.eqb_eq in Hq.
    exists (String (digit_char (n mod 10)) EmptyString).
    cbn [String.length]. rewrite Nat.pow_1_r. cbn [Nat.sub Nat.pow].
    repeat split; lia.
  - apply Nat.eqb_neq in Hq.
    destruct (IH (n / 10) (String (digit_char (n mod 10)) acc))
      as (d & Hd & Hlen & Hup & Hlow); [lia|].
    exists (d ++ String (digit_char (n mod 10)) EmptyString)%string.
    rewrite append_length. cbn [String.length].
    replace (String.length d + 1 - 1) with (S (String.length d - 1)) by lia.
    replace (String.length d + 1) with (S (String.length d)) by lia.
    rewrite !Nat.pow_succ_r'. specialize (Hlow Hq).
    repeat split; try lia.
    rewrite Hd, append_assoc. reflexivity.
Qed.

(** X13. The numeral of a positive count has exactly as many characters as
    the count has decimal digits: with [k] characters the count lies from
    [10^(k-1)] up to, but not reaching, [10^k]. *)
Theorem str_length_digits (n : nat) :
  0 < n ->
  10 ^ (String.length (str n) - 1) <= n < 10 ^ String.length (str n).
Proof.
  intros Hn.
  destruct (str_digits_bounds (S n) n "") as (d & Hd & _ & Hup & Hlow); [lia|].
  unfold str. rewrite Hd, append_empty_r. split; [apply Hlow; lia | exact Hup].
Qed.

(** X14. The count can be read back from the report line: under one
    prefix, two counts that give the same line are the same count. *)
Theorem report_line_count_injective (prefix : string) (n m : nat) :
  report_line (JString prefix) n = report_line (JString prefix) m ->
  n = m.
Proof.
  unfold report_line, py_add_str. intros [= H].
  apply String.app_inj in H.
  assert (Hv : decimal_value (str n) = decimal_value (str m)) by now rewrite H.
  rewrite !str_decimal in Hv. congruence.
Qed.

(** Fuel beyond what [n] needs changes nothing. *)
Lemma str_digits_fuel (fuel : nat) :
  forall fuel' n acc acc', n < fuel -> n < fuel' ->
  exists d,
    str_digits fuel n acc = (d ++ acc)%string /\
    str_digits fuel' n acc' = (d ++ acc')%string.
Proof.
  induction fuel as [|fuel IH]; intros fuel' n acc acc' Hn Hn'; [lia|].
  destruct fuel' as [|fuel']; [lia|].
  assert (Hdm : n = 10 * (n / 10) + n mod 10) by (apply Nat.div_mod; lia).
  cbn [str_digits]. destruct (Nat.eqb (n / 10) 0) eqn:Hq.
  - exists (String (digit_char (n mod 10)) EmptyString). split; reflexivity.
  - apply Nat.eqb_neq in Hq.
    destruct (IH fuel' (n / 10) (String (digit_char (n mod 10)) acc)
                (String (digit_char (n mod 10)) acc'))
      as (d & Hd & Hd'); [lia | lia |].
    exists (d ++ String (digit_char (n mod 10)) EmptyString)%string.
    rewrite Hd, Hd', !append_assoc. split; reflexivity.
Qed.

Lemma str_digits_str (fuel n : nat) (acc : string) :
  n < fuel -> str_digits fuel n acc = (str n ++ acc)%string.
Proof.
  intros Hn.
  destruct (str_digits_fuel fuel (S n) n acc "" Hn) as (d & Hd & Hd'); [lia|].
  unfold str. rewrite Hd, Hd', append_empty_r. reflexivity.
Qed.

(** One more digit at the end of a numeral that is not zero. *)
Lemma str_snoc (v d : nat) :
  0 < v -> d < 10 ->
  str (10 * v + d) = (str v ++ String (digit_char d) "")%string.
Proof.
  intros Hv Hd. unfold str at 1. cbn [str_digits].
  assert (Hm : (10 * v + d) mod 10 = d).
  { rewrite Nat.add_comm, Nat.mul_comm, Nat.Div0.mod_add.
    now apply Nat.mod_small. }
  assert (Hq : (10 * v + d) / 10 = v).
  { rewrite Nat.add_comm, Nat.mul_comm, Nat.div_add by lia.
    rewrite Nat.div_small by lia. reflexivity. }
  rewrite Hm, Hq.
  destruct (Nat.eqb v 0) eqn:Hz; [apply Nat.eqb_eq in Hz; lia|].
  apply str_digits_str. lia.
Qed.

Lemma str_digit (d : nat) : d < 10 -> str d = String (digit_char d) "".
Proof.
  intros Hd. unfold str. cbn [str_digits].
  rewrite Nat.mod_small, Nat.div_small by lia. reflexivity.
Qed.

Lemma digit_value_inv (c : Ascii.ascii) (d : nat) :
  digit_value c = Some d -> c = digit_char d /\ d < 10.
Proof.
  unfold digit_value, digit_char.
  destruct (Nat.leb 48 (Ascii.nat_of_ascii c)) eqn:Hlo; [|discriminate].
  destruct (Nat.leb (Ascii.nat_of_ascii c) 57) eqn:Hhi; [|discriminate].
  apply Nat.leb_le in Hlo, Hhi. cbn [andb]. intros [= <-]. split; [|lia].
  replace (48 + (Ascii.nat_of_ascii c - 48)) with (Ascii.nat_of_ascii c) by lia.
  now rewrite Ascii.ascii_nat_embedding.
Qed.

Lemma decimal_from_str (s : string) :
  forall a n, 0 < a -> decimal_from a s = Some n ->
  str n = (str a ++ s)%string.
Proof.
  induction s as [|c s IH]; intros a n Ha; cbn [decimal_from].
  - intros [= <-]. now rewrite append_empty_r.
  - destruct (digit_value c) as [d|] eqn:Hc; [|discriminate].
    apply digit_value_inv in Hc as [-> Hd]. intros Hn.
    apply IH in Hn; [|lia].
    rewrite Hn, str_snoc, append_assoc by assumption. reflexivity.
Qed.

(** X15. [str] is the only numeral without a leading zero: a string of
    digits that reads as [n] and does not start with a zero, unless it is
    the single digit zero, is [str n]. *)
Theorem str_canonical (s : string) (n : nat) :
  decimal_value s = Some n ->
  (forall t, s = String (digit_char 0) t -> t = "") ->
  s = str n.
Proof.
  destruct s as [|c s]; [discriminate|].
  unfold decimal_value. cbn [decimal_from].
  destruct (digit_value c) as [d|] eqn:Hc; [|discriminate].
  apply digit_value_inv in Hc as [-> Hd]. intros Hn Hlead.
  destruct d as [|d].
  - rewrite (Hlead s eq_refl) in *. cbn in Hn. injection Hn as <-.
    reflexivity.
  - replace (10 * 0 + S d) with (S d) in Hn by lia.
    apply decimal_from_str in Hn; [|lia].
    rewrite Hn, str_digit by assumption. reflexivity.
Qed.

(** ** The report line *)

Example report_line_two :
  report_line (JString "At-risk properties: ") 2 = Ok "At-risk properties: 2".
Proof. reflexivity. Qed.

Example report_line_zero : report_line (JString "n=") 0 = Ok "n=0".
Proof. reflexivity. Qed.

Example report_line_not_str : report_line (JInt 3) 2 = Err TypeError.
Proof. reflexivity. Qed.

(** C5. For every prefix string and every count, the text handed to [print]
    is the prefix immediately followed by the decimal numeral of the count:
    digits only, no leading zero unless the count is zero, and reading back
    as the count. *)
Theorem report_line_prefix_then_decimal (prefix : string) (count : nat) :
  exists digits,
    report_line (JString prefix) count = Ok (prefix ++ digits)%string /\
    digits = str count /\
    decimal_value digits = Some count /\
    (forall t, digits = String (digit_char 0) t -> count = 0).
Proof.
  exists (str count). repeat split.
  - apply str_decimal.
  - apply str_leading_zero.
Qed.

(** ** The extractor *)

Lemma extract_item_object (e : gmap string json) :
  extract_item (JObject e) = Ok (entry_fields e).
Proof.
  unfold extract_item, entry_fields, py_get, rbind.
  destruct (e !! "risk_layer_path"), (e !! "asset_layer_path"),
    (e !! "command_read_out"), (e !! "plot_title"); reflexivity.
Qed.

Lemma extract_loop_objects (entries : list (gmap string json)) :
  forall acc,
    extract_loop (JObject <$> entries) acc
    = Ok (acc ++ (entry_fields <$> entries))%list.
Proof.
  induction entries as [|e entries IH]; intros acc.
  - cbn. now rewrite app_nil_r.
  - rewrite !fmap_cons. cbn [extract_loop].
    rewrite extract_item_object. cbn [rbind].
    rewrite IH, <- app_assoc. reflexivity.
Qed.

Lemma extract_items_absent (cfg : gmap string json) :
  cfg !! "inputs" = None -> extract_items (JObject cfg) = Ok [].
Proof. intros H. unfold extract_items, py_get. rewrite H. reflexivity. Qed.

Lemma extract_items_objects (cfg : gmap string json)
    (entries : list (gmap string json)) :
  cfg !! "inputs" = Some (JArray (JObject <$> entries)) ->
  extract_items (JObject cfg) = Ok (entry_fields <$> entries).
Proof.
  intros H. unfold extract_items, py_get. rewrite H. cbn [rbind py_iter].
  apply extract_loop_objects.
Qed.

Lemma extract_item_not_object (v : json) :
  is_object v = false -> extract_item v = Err (AttributeError "get").
Proof. destruct v; first [discriminate | reflexivity]. Qed.

Lemma extract_item_is_object (v : json) :
  is_object v = true -> exists e, v = JObject e.
Proof. destruct v; try discriminate. intros _. eauto. Qed.

(** The accumulator only ever grows at its end: the loop started on [acc]
    is the loop started on nothing, with [acc] put in front. *)
Lemma extract_loop_acc (items : list json) :
  forall acc,
    extract_loop items acc
    = rbind (extract_loop items []) (fun ds => Ok (acc ++ ds)%list).
Proof.
  induction items as [|item items IH]; intros acc; cbn [extract_loop rbind].
  - now rewrite app_nil_r.
  - destruct (extract_item item) as [d|e]; cbn [rbind]; [|reflexivity].
    rewrite (IH (acc ++ [d])%list), (IH ([] ++ [d])%list).
    destruct (extract_loop items []) as [ds|e]; cbn [rbind]; [|reflexivity].
    now rewrite <- app_assoc.
Qed.

Lemma extract_loop_app (l1 l2 : list json) :
  forall acc,
    extract_loop (l1 ++ l2) acc
    = rbind (extract_loop l1 acc) (extract_loop l2).
Proof.
  induction l1 as [|item l1 IH]; intros acc; cbn [app extract_loop rbind].
  - reflexivity.
  - destruct (extract_item item) as [d|e]; cbn [rbind]; [apply IH | reflexivity].
Qed.

Lemma extract_loop_length (items : list json) :
  forall acc ds,
    extract_loop items acc = Ok ds ->
    length ds = length acc + length items.
Proof.
  induction items as [|item items IH]; intros acc ds; cbn [extract_loop].
  - intros [= <-]. cbn. lia.
  - destruct (extract_item item) as [d|e]; cbn [rbind]; [|discriminate].
    intros H. apply IH in H. rewrite length_app in H. cbn in *. lia.
Qed.

Lemma extract_loop_all_objects (items : list json) :
  forallb is_object items = true ->
  forall acc, exists ds, extract_loop items acc = Ok ds.
Proof.
  induction items as [|item items IH]; cbn [forallb extract_loop]; intros H acc.
  - eauto.
  - apply andb_prop in H as [Hitem Hrest].
    destruct (extract_item_is_object _ Hitem) as [e ->].
    rewrite extract_item_object. cbn [rbind]. apply IH, Hrest.
Qed.

Lemma extract_loop_some_not_object (items : list json) :
  forallb is_object items = false ->
  forall acc, extract_loop items acc = Err (AttributeError "get").
Proof.
  induction items as [|item items IH]; cbn [forallb extract_loop]; intros H acc.
  - discriminate.
  - destruct (is_object item) eqn:Hitem.
    + destruct (extract_item_is_object _ Hitem) as [e ->].
      rewrite extract_item_object. cbn [rbind]. apply IH, H.
    + now rewrite (extract_item_not_object _ Hitem).
Qed.

(** X1. On an [inputs] array the extractor succeeds exactly when every
    entry is an object, and then returns as many descriptors as there are
    entries; a single entry of another kind, wherever it stands, makes the
    whole extraction raise [AttributeError] on [get] and no descriptor is
    returned. *)
Theorem extract_items_array_objects_or_error
    (cfg : gmap string json) (items : list json) :
  cfg !! "inputs" = Some (JArray items) ->
  (forallb is_object items = true ->
     exists ds, extract_items (JObject cfg) = Ok ds /\
                length ds = length items) /\
  (forallb is_object items = false ->
     extract_items (JObject cfg) = Err (AttributeError "get")).
Proof.
  intros Hinputs. unfold extract_items, py_get. rewrite Hinputs.
  cbn [rbind py_iter]. split; intros Hall.
  - destruct (extract_loop_all_objects _ Hall []) as [ds Hds].
    exists ds. split; [assumption|].
    apply extract_loop_length in Hds. cbn in Hds. lia.
  - now apply extract_loop_some_not_object.
Qed.

(** X2. The four [get] calls look at their own keys only: setting any
    other key of an entry, to any value, leaves its descriptor as it was. *)
Theorem extract_item_ignores_other_keys
    (e : gmap string json) (key : string) (v : json) :
  key <> "risk_layer_path" -> key <> "asset_layer_path" ->
  key <> "command_read_out" -> key <> "plot_title" ->
  extract_item (JObject (<[key := v]> e)) = extract_item (JObject e).
Proof.
  intros H1 H2 H3 H4. rewrite !extract_item_object. unfold entry_fields.
  now rewrite !lookup_insert_ne by assumption.
Qed.

(** X3. Only the [inputs] key of the configuration is read: setting any
    other top-level key leaves the list of descriptors, or the exception,
    as it was. *)
Theorem extract_items_ignores_other_keys
    (cfg : gmap string json) (key : string) (v : json) :
  key <> "inputs" ->
  extract_items (JObject (<[key := v]> cfg)) = extract_items (JObject cfg).
Proof.
  intros Hkey. unfold extract_items, py_get.
  now rewrite lookup_insert_ne by assumption.
Qed.

(** X4. Descriptors follow the entries one for one and in order: when two
    [inputs] arrays are extracted without error, the array made of the
    first followed by the second gives the descriptors of the first
    followed by those of the second. *)
Theorem extract_items_concat
    (cfg1 cfg2 cfg : gmap string json) (l1 l2 : list json)
    (ds1 ds2 : list descriptor) :
  cfg1 !! "inputs" = Some (JArray l1) ->
  cfg2 !! "inputs" = Some (JArray l2) ->
  cfg !! "inputs" = Some (JArray (l1 ++ l2)) ->
  extract_items (JObject cfg1) = Ok ds1 ->
  extract_items (JObject cfg2) = Ok ds2 ->
  extract_items (JObject cfg) = Ok (ds1 ++ ds2)%list.
Proof.
  unfold extract_items, py_get. intros -> -> ->. cbn [rbind py_iter].
  intros H1 H2. rewrite extract_loop_app, H1. cbn [rbind].
  rewrite extract_loop_acc, H2. reflexivity.
Qed.



(** ** The driver *)

Lemma enumerate_from_app {A} (l1 l2 : list A) :
  forall start,
    enumerate_from start (l1 ++ l2)
    = (enumerate_from start l1 ++ enumerate_from (start + length l1) l2)%list.
Proof.
  induction l1 as [|x l1 IH]; intros start; cbn.
  - now rewrite Nat.add_0_r.
  - rewrite IH. do 3 f_equal. lia.
Qed.

(** After the loop the frame holds the last pair it walked over. *)
Lemma main_loop_snoc (config_items : list descriptor) (d : descriptor) :
  main_loop (config_items ++ [d])
  = loop_body (main_loop config_items) (length config_items, d).
Proof.
  unfold main_loop, enumerate.
  rewrite enumerate_from_app, fold_left_app. reflexivity.
Qed.

Section DriverFacts.

Context {GeoDataFrame CRS Figure Axes World : Type}.
Variable len : GeoDataFrame -> nat.
Variable crs : GeoDataFrame -> CRS.

Local Abbreviation action := (@action GeoDataFrame CRS Axes).
Local Abbreviation response := (@response GeoDataFrame CRS Figure Axes).
Local Abbreviation prog := (@prog GeoDataFrame CRS Figure Axes).

Variable respond : forall a : action, World -> result (response a) * World.

Lemma run_bind {T U} (p : prog T) (f : T -> prog U) :
  forall w,
    run respond (bind p f) w
    = match run respond p w with
      | (Ok x, w', calls) =>
          let '(out, w'', calls') := run respond (f x) w' in
          (out, w'', (calls ++ calls')%list)
      | (Err e, w', calls) => (Err e, w', calls)
      end.
Proof.
  induction p as [x|e|a k IH]; intros w; cbn [bind run].
  - destruct (run respond (f x) w) as [[out w''] calls']. reflexivity.
  - reflexivity.
  - destruct (respond a w) as [[r|e] w']; [|reflexivity].
    rewrite IH. destruct (run respond (k r) w') as [[[x|e] w''] calls].
    + destruct (run respond (f x) w'') as [[out w3] calls']. reflexivity.
    + reflexivity.
Qed.

Lemma run_call (a : action) (w : World) :
  run respond (call a) w
  = match respond a w with
    | (Ok r, w') => (Ok r, w', [a])
    | (Err e, w') => (Err e, w', [a])
    end.
Proof.
  unfold call. cbn [run]. destruct (respond a w) as [[r|e] w']; reflexivity.
Qed.

(** Reading the configuration: two calls, then the pure loop. *)
Lemma run_extract_config (file_path text : string) (config : json)
    (w w1 w2 : World) :
  respond (open_read file_path) w = (Ok text, w1) ->
  respond (json_load text) w1 = (Ok config, w2) ->
  run respond (extract_config file_path) w
  = (extract_items config, w2, [open_read file_path; json_load text]).
Proof.
  intros Hopen Hload. unfold extract_config, call. cbn [bind run].
  rewrite Hopen. cbn [bind run]. rewrite Hload.
  destruct (extract_items config); reflexivity.
Qed.

(** C2. For a configuration object whose [inputs] key is absent or holds an
    array of objects, the extractor returns one descriptor per entry, in
    order; each of the four fields is the entry's value when the key is
    present and the empty string when it is absent; no entry makes it
    fail. *)
Theorem extract_config_one_descriptor_per_entry
    (file_path text : string) (cfg : gmap string json)
    (entries : list (gmap string json)) (w w1 w2 : World) :
  respond (open_read file_path) w = (Ok text, w1) ->
  respond (json_load text) w1 = (Ok (JObject cfg), w2) ->
  (cfg !! "inputs" = None /\ entries = []) \/
  cfg !! "inputs" = Some (JArray (JObject <$> entries)) ->
  exists ds,
    run respond (extract_config file_path) w
    = (Ok ds, w2, [open_read file_path; json_load text]) /\
    length ds = length entries /\
    forall i e, entries !! i = Some e ->
      exists d, ds !! i = Some d /\
        risk_layer_path d = default (JString "") (e !! "risk_layer_path") /\
        asset_layer_path d = default (JString "") (e !! "asset_layer_path") /\
        command_read_out d = default (JString "") (e !! "command_read_out") /\
        plot_title d = default (JString "") (e !! "plot_title").
Proof.
  intros Hopen Hload Hinputs.
  exists (entry_fields <$> entries). split; [|split].
  - rewrite (run_extract_config _ _ _ _ _ _ Hopen Hload).
    destruct Hinputs as [[Habsent ->] | Harray].
    + now rewrite extract_items_absent.
    + now rewrite (extract_items_objects _ _ Harray).
  - apply length_fmap.
  - intros i e Hi. exists (entry_fields e). split.
    + rewrite list_lookup_fmap, Hi. reflexivity.
    + repeat split.
Qed.

(** On a list of descriptors that is not empty, the names the body reads
    after the loop are bound to the fields of the last one. *)
Lemma main_loop_last (config_items : list descriptor) (d : descriptor) :
  last config_items = Some d ->
  Frame.risk_layer_path (main_loop config_items) = Some (risk_layer_path d) /\
  Frame.asset_layer_path (main_loop config_items) = Some (asset_layer_path d) /\
  Frame.command_read_out (main_loop config_items) = Some (command_read_out d) /\
  Frame.plot_title (main_loop config_items) = Some (plot_title d).
Proof.
  intros Hlast. apply last_Some in Hlast as [front ->].
  rewrite main_loop_snoc. repeat split.
Qed.

(** The body never reads [idx] or [item]: what came before the last
    descriptor leaves no mark on the program. *)
Lemma main_from_last (config_items : list descriptor) (d : descriptor) :
  last config_items = Some d ->
  @main_from GeoDataFrame CRS Figure Axes len crs config_items
  = @main_from GeoDataFrame CRS Figure Axes len crs [d].
Proof.
  intros Hlast. apply last_Some in Hlast as [front ->].
  unfold main_from. rewrite main_loop_snoc. reflexivity.
Qed.

(** C1. When the [inputs] array has at least one entry, the names the body
    reads after the loop are bound to the fields of the last entry, and the
    whole run is the run on that last descriptor alone, whatever the
    entries before it and however many there are. *)
Theorem main_processes_last_entry
    (text : string) (cfg : gmap string json)
    (entries : list (gmap string json)) (e : gmap string json)
    (w w1 w2 : World) :
  respond (open_read "config.json") w = (Ok text, w1) ->
  respond (json_load text) w1 = (Ok (JObject cfg), w2) ->
  cfg !! "inputs" = Some (JArray (JObject <$> entries)) ->
  last entries = Some e ->
  exists config_items d,
    run respond (extract_config "config.json") w
    = (Ok config_items, w2, [open_read "config.json"; json_load text]) /\
    length config_items = length entries /\
    last config_items = Some d /\
    d = {| risk_layer_path := default (JString "") (e !! "risk_layer_path");
           asset_layer_path := default (JString "") (e !! "asset_layer_path");
           command_read_out := default (JString "") (e !! "command_read_out");
           plot_title := default (JString "") (e !! "plot_title") |} /\
    Frame.risk_layer_path (main_loop config_items) = Some (risk_layer_path d) /\
    Frame.asset_layer_path (main_loop config_items) = Some (asset_layer_path d) /\
    Frame.command_read_out (main_loop config_items) = Some (command_read_out d) /\
    Frame.plot_title (main_loop config_items) = Some (plot_title d) /\
    run respond (main len crs) w
    = (let '(out, w', calls) := run respond (main_from len crs [d]) w2 in
       (out, w', open_read "config.json" :: json_load text :: calls)).
Proof.
  intros Hopen Hload Harray Hlast.
  assert (Hlast' : last (entry_fields <$> entries) = Some (entry_fields e))
    by (rewrite fmap_last, Hlast; reflexivity).
  exists (entry_fields <$> entries), (entry_fields e).
  assert (Hrun : run respond (extract_config "config.json") w
                 = (Ok (entry_fields <$> entries), w2,
                    [open_read "config.json"; json_load text])).
  { rewrite (run_extract_config _ _ _ _ _ _ Hopen Hload).
    now rewrite (extract_items_objects _ _ Harray). }
  destruct (main_loop_last _ _ Hlast') as (Hr & Ha & Hc & Hp).
  repeat split; try assumption.
  - apply length_fmap.
  - unfold main. rewrite run_bind, Hrun.
    rewrite (main_from_last _ _ Hlast'). reflexivity.
Qed.

(** C10. When [inputs] is absent or an empty array, the driver stops with
    an unbound-local error on [plot_title], the first name line 105 reads.
    By then it has made the two calls that read the configuration and no
    other: no layer was opened and nothing was written, printed or
    rendered. *)
Theorem main_empty_inputs_unbound_local
    (text : string) (cfg : gmap string json) (w w1 w2 : World) :
  respond (open_read "config.json") w = (Ok text, w1) ->
  respond (json_load text) w1 = (Ok (JObject cfg), w2) ->
  cfg !! "inputs" = None \/ cfg !! "inputs" = Some (JArray []) ->
  exists calls,
    run respond (main len crs) w
    = (Err (UnboundLocalError "plot_title"), w2, calls) /\
    calls = [open_read "config.json"; json_load text] /\
    existsb opens_layer calls = false /\
    existsb produces_artifact calls = false.
Proof.
  intros Hopen Hload Hinputs.
  assert (Hitems : extract_items (JObject cfg) = Ok []).
  { destruct Hinputs as [Habsent | Hempty].
    - now apply extract_items_absent.
    - now apply (extract_items_objects cfg []). }
  exists [open_read "config.json"; json_load text]. repeat split.
  unfold main. rewrite run_bind.
  rewrite (run_extract_config _ _ _ _ _ _ Hopen Hload), Hitems.
  reflexivity.
Qed.

(** *** The success path *)

Ltac answer H :=
  match goal with
  | |- context [respond ?a ?w] =>
      let r := fresh "r" in
      let w' := fresh "w" in
      let E := fresh "E" in
      destruct (H a w) as (r & w' & E); cbn [response] in r;
      rewrite E; cbn [bind run call]
  end.


(** *** Where a run stops *)


(** X6. When reading the configuration raises, for whatever reason, [main]
    ends with that very exception, in the world the extractor left, having
    made the extractor's calls and no other: no layer is opened and
    nothing is written, printed or drawn. *)
Theorem main_stops_when_config_fails
    (e : pyerr) (w w' : World) (calls : list action) :
  run respond (extract_config "config.json") w = (Err e, w', calls) ->
  run respond (main len crs) w = (Err e, w', calls) /\
  existsb opens_layer calls = false /\
  existsb produces_artifact calls = false.
Proof.
  intros Hrun. split.
  - unfold main. now rewrite run_bind, Hrun.
  - revert Hrun. unfold extract_config, call. cbn [bind run].
    destruct (respond (open_read "config.json") w) as [[text|e1] w1];
      [|intros [= _ _ <-]; split; reflexivity].
    cbn [bind run].
    destruct (respond (json_load text) w1) as [[config|e2] w2];
      [|intros [= _ _ <-]; split; reflexivity].
    destruct (extract_items config); cbn [lift bind run];
      intros [= _ _ <-]; split; reflexivity.
Qed.


(** X8. The body of [main] raises on an unbound [plot_title] exactly when
    the list of descriptors is empty: one descriptor is enough to bind
    every name the body reads. *)
Theorem main_from_unbound_iff_empty (config_items : list descriptor) :
  @main_from GeoDataFrame CRS Figure Axes len crs config_items
  = @Raise GeoDataFrame CRS Figure Axes unit (UnboundLocalError "plot_title")
  <-> config_items = [].
Proof.
  split; [|intros ->; reflexivity].
  destruct (last config_items) as [d|] eqn:Hlast.
  - rewrite (main_from_last _ _ Hlast). unfold main_from, main_body.
    cbn [main_loop enumerate enumerate_from fold_left loop_body
         Frame.plot_title local bind].
    destruct (plot_title d); cbn; discriminate.
  - intros _. now apply last_None in Hlast.
Qed.

(** X9. A [plot_title] that is not a string stops the run at line 105 with
    [TypeError], before the first library call: no layer is opened. *)
Theorem main_from_title_not_string
    (config_items : list descriptor) (d : descriptor) :
  last config_items = Some d ->
  is_string (plot_title d) = false ->
  @main_from GeoDataFrame CRS Figure Axes len crs config_items
  = @Raise GeoDataFrame CRS Figure Axes unit TypeError.
Proof.
  intros Hlast Htitle. rewrite (main_from_last _ _ Hlast).
  unfold main_from, main_body.
  cbn [main_loop enumerate enumerate_from fold_left loop_body
       Frame.plot_title local bind].
  destruct (plot_title d); first [discriminate | reflexivity].
Qed.

(** X10. A [command_read_out] that is not a string is found out at line
    121 only: in a world that answers every call, the run loads both
    layers, reprojects, overlays and writes the result file, and then ends
    in [TypeError] with nothing printed and nothing drawn.  The file
    written stays behind. *)
Theorem main_from_prefix_not_string
    (config_items : list descriptor) (d : descriptor) (title : string)
    (w : World) :
  always_answers respond ->
  last config_items = Some d ->
  plot_title d = JString title ->
  is_string (command_read_out d) = false ->
  exists (risk asset asset' at_risk : GeoDataFrame) (w' : World),
    run respond (main_from len crs config_items) w
    = (Err TypeError, w',
       [ gpd_read_file (risk_layer_path d);
         gpd_read_file (asset_layer_path d);
         to_crs asset (crs risk);
         gpd_overlay asset' risk "intersection";
         to_file at_risk (title ++ ".json") "GeoJSON" ]).
Proof.
  intros Hworld Hlast Htitle Hprefix. rewrite (main_from_last _ _ Hlast).
  unfold main_from, main_body, load_geojson, overlay_maps, save_geojson.
  cbn [main_loop enumerate enumerate_from fold_left loop_body
       Frame.plot_title Frame.risk_layer_path Frame.asset_layer_path
       Frame.command_read_out].
  rewrite Htitle. cbn [local lift py_add_str bind run call].
  do 5 answer Hworld.
  unfold report_line.
  destruct (command_read_out d); try discriminate;
    cbn [py_add_str lift bind run]; eexists _, _, _, _, _; reflexivity.
Qed.

Ltac halt :=
  intros [= <- <- <-];
  split; [eexists; reflexivity | intros ? [=]].

Ltac advance :=
  match goal with
  | |- context [respond ?a ?w] =>
      let r := fresh "r" in
      let e := fresh "e" in
      let w' := fresh "w" in
      destruct (respond a w) as [[r|e] w']; [cbn [response] in r|];
      cbn [bind run call lift local py_add_str report_line snd]
  end.

(** X11. The body of [main] is a straight line.  Whatever the frame and
    whatever the world answers, the calls of a run are, step for step, a
    beginning of: load, load, reproject, overlay, write, report, and the
    nine calls of the renderer; a run that returns went through all
    fifteen.  So nothing is written before the overlay was answered,
    nothing printed before the write, nothing drawn before the print. *)
Theorem main_body_stages_prefix
    (f : Frame.t) (w w' : World) (out : result unit) (calls : list action) :
  run respond (main_body len crs f) w = (out, w', calls) ->
  (stage_of <$> calls) `prefix_of` body_stages /\
  (forall x, out = Ok x -> stage_of <$> calls = body_stages).
Proof.
  unfold main_body, load_geojson, overlay_maps, save_geojson,
    plot_and_save_properties, report_line.
  destruct f as [i it rp ap cr pt]; cbn [Frame.plot_title
    Frame.risk_layer_path Frame.asset_layer_path Frame.command_read_out].
  destruct pt as [pt|]; [|halt].
  destruct pt; cbn [local lift py_add_str bind run call]; try halt.
  destruct rp as [rp|]; cbn [local lift bind run call]; [|halt].
  advance; [|halt].
  destruct ap as [ap|]; cbn [local lift bind run call]; [|halt].
  do 4 (advance; [|halt]).
  destruct cr as [cr|]; cbn [local lift bind run call]; [|halt].
  destruct cr; cbn [local lift py_add_str bind run call]; try halt.
  do 10 (advance; [|halt]).
  intros [= <- <- <-]. split; [exists []; reflexivity | reflexivity].
Qed.


End DriverFacts.

(** ** The theorems at work in the scripted world *)

Example extract_items_sample :
  extract_items (JObject sample_config) = Ok [first_job; second_job].
Proof. vm_compute. reflexivity. Qed.

Example extract_items_inputs_null :
  extract_items (JObject {[ "inputs" := JNull ]}) = Err TypeError.
Proof. vm_compute. reflexivity. Qed.

Example extract_items_entry_not_object :
  extract_items (JObject {[ "inputs" := JArray [JString "x"] ]})
  = Err (AttributeError "get").
Proof. vm_compute. reflexivity. Qed.

Example extract_items_not_object :
  extract_items (JArray []) = Err (AttributeError "get").
Proof. reflexivity. Qed.

Lemma extract_config_sample_descriptors :
  exists ds,
    run (scripted "{}" (JObject sample_config)) (extract_config "config.json") tt
    = (Ok ds, tt, [open_read "config.json"; json_load "{}"]) /\
    length ds = length sample_entries /\
    forall i e, sample_entries !! i = Some e ->
      exists d, ds !! i = Some d /\
        risk_layer_path d = default (JString "") (e !! "risk_layer_path") /\
        asset_layer_path d = default (JString "") (e !! "asset_layer_path") /\
        command_read_out d = default (JString "") (e !! "command_read_out") /\
        plot_title d = default (JString "") (e !! "plot_title").
Proof.
  apply (extract_config_one_descriptor_per_entry
           (scripted "{}" (JObject sample_config))
           "config.json" "{}" sample_config sample_entries tt tt tt).
  - reflexivity.
  - reflexivity.
  - right. vm_compute. reflexivity.
Defined.

Lemma main_sample_processes_second_job :
  exists config_items d,
    run (scripted "{}" (JObject sample_config)) (extract_config "config.json") tt
    = (Ok config_items, tt, [open_read "config.json"; json_load "{}"]) /\
    length config_items = length sample_entries /\
    last config_items = Some d /\
    d = {| risk_layer_path :=
             default (JString "") (({[ "plot_title" := JString "second.png" ]}
                                     : gmap string json) !! "risk_layer_path");
           asset_layer_path :=
             default (JString "") (({[ "plot_title" := JString "second.png" ]}
                                     : gmap string json) !! "asset_layer_path");
           command_read_out :=
             default (JString "") (({[ "plot_title" := JString "second.png" ]}
                                     : gmap string json) !! "command_read_out");
           plot_title :=
             default (JString "") (({[ "plot_title" := JString "second.png" ]}
                                     : gmap string json) !! "plot_title") |} /\
    Frame.risk_layer_path (main_loop config_items) = Some (risk_layer_path d) /\
    Frame.asset_layer_path (main_loop config_items) = Some (asset_layer_path d) /\
    Frame.command_read_out (main_loop config_items) = Some (command_read_out d) /\
    Frame.plot_title (main_loop config_items) = Some (plot_title d) /\
    run (scripted "{}" (JObject sample_config)) (main (fun _ => 0) id) tt
    = (let '(out, w', calls) :=
         run (scripted "{}" (JObject sample_config))
           (main_from (fun _ => 0) id [d]) tt in
       (out, w', open_read "config.json" :: json_load "{}" :: calls)).
Proof.
  apply (main_processes_last_entry (fun _ => 0) id
           (scripted "{}" (JObject sample_config))
           "{}" sample_config sample_entries
           {[ "plot_title" := JString "second.png" ]} tt tt tt).
  - reflexivity.
  - reflexivity.
  - vm_compute. reflexivity.
  - reflexivity.
Defined.

Lemma main_no_inputs_key_unbound_local :
  exists calls,
    run (scripted "{}" (JObject ∅)) (main (fun _ => 0) id) tt
    = (Err (UnboundLocalError "plot_title"), tt, calls) /\
    calls = [open_read "config.json"; json_load "{}"] /\
    existsb opens_layer calls = false /\
    existsb produces_artifact calls = false.
Proof.
  apply (main_empty_inputs_unbound_local (fun _ => 0) id
           (scripted "{}" (JObject ∅)) "{}" ∅ tt tt tt).
  - reflexivity.
  - reflexivity.
  - left. reflexivity.
Defined.

(** The calls of a complete run, in order, on a configuration with one
    entry and an overlay result of two features. *)
Example main_run_calls :
  run (scripted "{}" (JObject {[ "inputs" := JArray [JObject (sample_entries !!! 0)] ]}))
      (main (fun _ => 2) id) tt
  = (Ok tt, tt,
     [ open_read "config.json"; json_load "{}";
       gpd_read_file (JString "flood.geojson");
       gpd_read_file (JString "homes.geojson");
       to_crs tt tt;
       gpd_overlay tt tt "intersection";
       to_file tt "first.png.json" "GeoJSON";
       print "At-risk properties: 2";
       plt_subplots (12, 10)%Z;
       gdf_plot tt tt
         (PlotStyle "blue" (Some "0.4") (Some "k") None "Flood Risk Area");
       gdf_plot tt tt (PlotStyle "gray" None None (Some 10%Z) "All Properties");
       gdf_plot tt tt
         (PlotStyle "red" None None (Some 15%Z) "At-Risk Properties");
       ctx_add_basemap tt "OpenStreetMap.Mapnik";
       ax_set_title tt (JString "first.png");
       ax_set_axis_off tt;
       plt_legend;
       plt_savefig (JString "first.png") ]).
Proof. vm_compute. reflexivity. Qed.

Lemma scripted_always_answers (text : string) (config : json) :
  always_answers (scripted text config).
Proof. intros a []. destruct a; eexists _, _; reflexivity. Qed.

Lemma extract_items_sample_objects_or_error :
  (forallb is_object (JObject <$> sample_entries) = true ->
     exists ds, extract_items (JObject sample_config) = Ok ds /\
                length ds = length (JObject <$> sample_entries)) /\
  (forallb is_object (JObject <$> sample_entries) = false ->
     extract_items (JObject sample_config) = Err (AttributeError "get")).
Proof.
  apply (extract_items_array_objects_or_error sample_config
           (JObject <$> sample_entries)).
  vm_compute. reflexivity.
Defined.

Lemma extract_item_ignores_notes :
  extract_item
    (JObject (<["notes" := JInt 7]> {[ "plot_title" := JString "second.png" ]}))
  = extract_item (JObject {[ "plot_title" := JString "second.png" ]}).
Proof.
  apply (extract_item_ignores_other_keys
           {[ "plot_title" := JString "second.png" ]} "notes" (JInt 7));
    discriminate.
Defined.

Lemma extract_items_ignores_version :
  extract_items (JObject (<["version" := JInt 2]> sample_config))
  = extract_items (JObject sample_config).
Proof.
  apply (extract_items_ignores_other_keys sample_config "version" (JInt 2)).
  discriminate.
Defined.

Lemma extract_items_concat_sample :
  extract_items
    (JObject {[ "inputs" := JArray ([JObject ∅] ++ [JObject ∅; JObject ∅]) ]})
  = Ok ([entry_fields ∅] ++ [entry_fields ∅; entry_fields ∅])%list.
Proof.
  apply (extract_items_concat
           {[ "inputs" := JArray [JObject ∅] ]}
           {[ "inputs" := JArray [JObject ∅; JObject ∅] ]}
           {[ "inputs" := JArray ([JObject ∅] ++ [JObject ∅; JObject ∅]) ]}
           [JObject ∅] [JObject ∅; JObject ∅]);
    vm_compute; reflexivity.
Defined.


Lemma main_stops_on_config_not_object :
  run (scripted "[]" (JArray [])) (main (fun _ => 0) id) tt
  = (Err (AttributeError "get"), tt,
     [open_read "config.json"; json_load "[]"]) /\
  existsb opens_layer
    ([open_read "config.json"; json_load "[]"] : list (@action unit unit unit))
  = false /\
  existsb produces_artifact
    ([open_read "config.json"; json_load "[]"] : list (@action unit unit unit))
  = false.
Proof.
  apply (main_stops_when_config_fails (fun _ => 0) id
           (scripted "[]" (JArray []))).
  reflexivity.
Defined.


Lemma main_from_numeric_title :
  @main_from unit unit unit unit (fun _ => 0) id
    [first_job; Descriptor (JString "") (JString "") (JString "") (JInt 5)]
  = @Raise unit unit unit unit unit TypeError.
Proof.
  apply (main_from_title_not_string (fun _ => 0) id
           [first_job; Descriptor (JString "") (JString "") (JString "") (JInt 5)]
           (Descriptor (JString "") (JString "") (JString "") (JInt 5)));
    reflexivity.
Defined.

Lemma main_from_numeric_prefix :
  exists (risk asset asset' at_risk : unit) (w' : unit),
    run (scripted "{}" JNull)
      (main_from (fun _ => 0) id
         [Descriptor (JString "r") (JString "a") (JInt 1) (JString "t")]) tt
    = (Err TypeError, w',
       [ gpd_read_file (JString "r");
         gpd_read_file (JString "a");
         to_crs asset (id risk);
         gpd_overlay asset' risk "intersection";
         to_file at_risk "t.json" "GeoJSON" ]).
Proof.
  apply (main_from_prefix_not_string (fun _ => 0) id (scripted "{}" JNull)
           [Descriptor (JString "r") (JString "a") (JInt 1) (JString "t")]
           (Descriptor (JString "r") (JString "a") (JInt 1) (JString "t"))
           "t" tt).
  - apply scripted_always_answers.
  - reflexivity.
  - reflexivity.
  - reflexivity.
Defined.

Lemma main_body_stages_unbound_prefix :
  (stage_of <$> ([gpd_read_file (JString "r")] : list (@action unit unit unit)))
    `prefix_of` body_stages /\
  (forall x : unit,
     @Err unit (UnboundLocalError "asset_layer_path") = Ok x ->
     stage_of <$> ([gpd_read_file (JString "r")] : list (@action unit unit unit))
     = body_stages).
Proof.
  apply (main_body_stages_prefix (fun _ => 0) id (scripted "{}" JNull)
           (Frame.Make None None (Some (JString "r")) None None
              (Some (JString "t")))
           tt tt).
  reflexivity.
Defined.


Lemma str_length_digits_120 :
  10 ^ (String.length (str 120) - 1) <= 120 < 10 ^ String.length (str 120).
Proof. apply (str_length_digits 120). lia. Defined.

Lemma report_line_count_injective_sample : 42 = 42.
Proof.
  apply (report_line_count_injective "At-risk properties: " 42 42).
  reflexivity.
Defined.

Lemma str_canonical_120 : "120" = str 120.
Proof.
  apply (str_canonical "120" 120).
  - reflexivity.
  - intros t H. discriminate H.
Defined.
